(** * PythonVRFT: the estimation pipeline of [vrft/vrft/vrft_algo.py]

    A shallow embedding of the three functions of [vrft_algo.py]
    ([calcMinimum], [calcControllerReponse], [vrftAlgorithm]) and of the
    checks that the specification asks of [virtual_reference].

    Numbers.  NumPy's float64 values are modelled by the elements of an
    ordered field [R]; rounding is not modelled, so the properties below
    are about which statement a call reaches and which exception it
    raises, not about the digits it computes.  Concrete inputs are given
    over [rat].

    Errors.  A Python call either returns a value or raises; [result]
    is the corresponding sum type and [exn] lists the exception classes
    that the modelled code can raise. *)

From HB Require Import structures.
From mathcomp Require Import ssreflect ssrfun ssrbool eqtype ssrnat seq choice.
From mathcomp Require Import fintype bigop order ssralg ssrnum ssrint rat.
From mathcomp Require Import archimedean matrix mxalgebra.
From Stdlib Require Import String.

Set Implicit Arguments.
Unset Strict Implicit.
Unset Printing Implicit Defensive.

Import GRing.Theory Num.Theory Order.Theory.

Local Open Scope ring_scope.

(** ** Exceptions and results *)

(** The exception classes met in the modelled code.  [ValueError] is what the
    specification calls a validation error, [LinAlgError] (raised by
    [numpy.linalg.inv]) what it calls a numerical error. *)
Inductive exn : Type :=
  | ValueError of string
  | NameError of string
  | TypeError of string
  | LinAlgError of string
  | ZeroDivisionError of string
  | IndexError of string
  | AttributeError of string
  | IndentationError of string.

Inductive result (A : Type) : Type :=
  | Ok of A
  | Err of exn.

Arguments Ok {A} _.
Arguments Err {A} _.

Definition bind {A B : Type} (m : result A) (f : A -> result B) : result B :=
  match m with
  | Ok a => f a
  | Err e => Err e
  end.

Notation "x <- m ;; f" := (bind m (fun x => f))
  (at level 61, m at next level, right associativity).
Notation "m ;;; f" := (bind m (fun _ => f))
  (at level 61, right associativity).

Definition is_ok {A : Type} (m : result A) : bool :=
  if m is Ok _ then true else false.

Definition is_ValueError {A : Type} (m : result A) : bool :=
  if m is Err (ValueError _) then true else false.

(** ** The least-squares step: [calcMinimum] *)

Module LeastSquares.
Section Estimator.

Variable R : realFieldType.

(** [numpy.linalg.inv]: the inverse of a square matrix, [LinAlgError] when
    the matrix is singular.  This is the function in exact arithmetic; in
    float64 the test is on a pivot after rounding, which the model does
    not follow. *)
Definition inv (n : nat) (A : 'M[R]_n) : result 'M[R]_n :=
  if A \in unitmx then Ok (invmx A) else Err (LinAlgError "Singular matrix").

(** [np.dot] of a matrix with a one-dimensional array. *)
Definition dot (m n : nat) (A : 'M[R]_(m, n)) (v : 'cV[R]_n) : 'cV[R]_m :=
  A *m v.

(** [calcMinimum(phi, data)], lines 10-17.  [phi] is the regressor, one row
    per basis function and one column per sample; [u] is [data.u].  The
    entries of the returned vector are those of the matrix that NumPy
    returns. *)
Definition calcMinimum (k N : nat) (phi : 'M[R]_(k, N)) (u : 'cV[R]_N)
    : result 'cV[R]_k :=
  G <- inv (phi *m phi^T) ;;
  let theta := G *m phi in
  Ok (dot theta u).

End Estimator.
End LeastSquares.

(** ** Python values *)

Module Py.
Section Values.

Variable R : archiRealFieldType.

(** [iddata(y, u, ts, y0)]: the experiment data.  The class comes from the
    star import of [vrft.utilities.iddata]; its fields are those that the
    code reads ([data.y], [data.u], [data.ts]) and the vector of initial
    conditions that the tests pass as fourth argument. *)
Record iddata : Type := Iddata {
  data_y : seq R;
  data_u : seq R;
  data_ts : R;
  data_y0 : seq R
}.

(** What the attributes [num] and [den] of an object of class
    [ctl.TransferFunction] hold.  The control library keeps a list of
    lists of arrays, one array [num[i][j]] per output and input; an
    object of a subclass may hold an array of coefficients instead. *)
Inductive coefficients : Type :=
  | NestedList of seq (seq (seq R))
  | NdArray of seq R.

(** [ctl.TransferFunction]: coefficients with the highest power first, and
    the sampling period. *)
Record TransferFunction : Type := TF {
  tf_num : coefficients;
  tf_den : coefficients;
  tf_dt : R
}.

(** The run-time values that the modelled functions can be handed. *)
Inductive pyval : Type :=
  | PyNone
  | PyInt of int
  | PyFloat of R
  | PyStr of string
  | PyList of seq pyval
  | PyTuple of seq pyval
  | PyScalarArray of R
  | PyArray of seq R
  | PyMatrix (k N : nat) of 'M[R]_(k, N)
  | PyIddata of iddata
  | PyTF of TransferFunction.

Definition isinstance_iddata (v : pyval) : bool :=
  if v is PyIddata _ then true else false.

Definition isinstance_TransferFunction (v : pyval) : bool :=
  if v is PyTF _ then true else false.

Definition type_is_list (v : pyval) : bool :=
  if v is PyList _ then true else false.

(** [len(v)] *)
Definition len (v : pyval) : result nat :=
  match v with
  | PyList l => Ok (size l)
  | PyTuple l => Ok (size l)
  | PyArray a => Ok (size a)
  | PyStr s => Ok (String.length s)
  | PyMatrix k _ _ => Ok k
  | _ => Err (TypeError "object has no len()")
  end.

(** ** The NumPy functions that the code calls *)

(** [np.arange(start, stop, step)] with integer bounds: the values
    [start + i * step] for [i] below [ceil ((stop - start) / step)].  The
    length is a quotient by [step]; a zero step raises (the class given
    here is the one for a Python number).  The quotient is the exact one;
    in float64 the length can differ by one. *)
Definition arange (start stop : nat) (step : R) : result (seq R) :=
  if step == 0 then Err (ZeroDivisionError "division by zero")
  else
    let n := Num.ceil ((stop%:R - start%:R) / step) in
    let n := if 0 <= n then `|n|%N else 0%N in
    Ok [seq start%:R + i%:R * step | i <- iota 0 n].

(** The second positional parameter of [np.zeros] is [dtype].  [None] and
    the names of the numeric types are data types; a number is not. *)
Definition is_dtype_name (s : string) : bool :=
  (String.eqb s "float" || String.eqb s "float64" || String.eqb s "float32"
   || String.eqb s "int" || String.eqb s "int64" || String.eqb s "int32"
   || String.eqb s "bool" || String.eqb s "complex")%bool.

Definition np_dtype (v : pyval) : result unit :=
  match v with
  | PyNone => Ok tt
  | PyStr s =>
      if is_dtype_name s then Ok tt
      else Err (TypeError "data type not understood")
  | _ => Err (TypeError "Cannot interpret value as a data type")
  end.

(** [np.zeros(shape, dtype)] for an integer [shape]: a one-dimensional
    array. *)
Definition zeros (shape : nat) (dtype : pyval) : result pyval :=
  np_dtype dtype ;;; Ok (PyArray (nseq shape 0)).

(** [phi[i, :] = y]: two indices address a two-dimensional array only. *)
Definition setrow (phi : pyval) (i : nat) (y : seq R) : result pyval :=
  match phi with
  | PyMatrix k N m =>
      if (i < k)%N then
        if (size y == N) || (size y == 1%N) then
          Ok (PyMatrix
                (\matrix_(a < k, b < N)
                   if (a : nat) == i
                   then nth 0 y (if size y == 1%N then 0%N else b)
                   else m a b))
        else Err (ValueError "could not broadcast input array")
      else Err (IndexError "index is out of bounds for axis 0")
  | PyArray _ => Err (IndexError "too many indices for array")
  | _ => Err (TypeError "object does not support item assignment")
  end.

(** [base[i]] *)
Definition getitem (v : pyval) (i : nat) : result pyval :=
  match v with
  | PyList l =>
      if (i < size l)%N then Ok (nth PyNone l i)
      else Err (IndexError "list index out of range")
  | PyTuple l =>
      if (i < size l)%N then Ok (nth PyNone l i)
      else Err (IndexError "tuple index out of range")
  | PyArray a =>
      if (i < size a)%N then Ok (PyFloat (nth 0 a i))
      else Err (IndexError "index is out of bounds")
  | _ => Err (TypeError "object is not subscriptable")
  end.

(** [r - y] for a one-dimensional array [y], with NumPy's broadcasting of
    an operand of length one.  A list or a number on the left is converted
    to an array first. *)
Fixpoint numbers (l : seq pyval) : option (seq R) :=
  match l with
  | [::] => Some [::]
  | PyFloat x :: l' => omap (cons x) (numbers l')
  | PyInt z :: l' => omap (cons z%:~R) (numbers l')
  | _ :: _ => None
  end.

Definition asarray (v : pyval) : option (seq R) :=
  match v with
  | PyArray a => Some a
  | PyScalarArray x => Some [:: x]
  | PyFloat x => Some [:: x]
  | PyInt z => Some [:: z%:~R]
  | PyList l => numbers l
  | PyTuple l => numbers l
  | _ => None
  end.

Definition sub_array (r : pyval) (y : seq R) : result pyval :=
  match asarray r with
  | Some a =>
      if size a == size y then
        Ok (PyArray [seq p.1 - p.2 | p <- zip a y])
      else if size a == 1%N then
        Ok (PyArray [seq nth 0 a 0 - b | b <- y])
      else if size y == 1%N then
        Ok (PyArray [seq c - nth 0 y 0 | c <- a])
      else Err (ValueError "operands could not be broadcast together")
  | None => Err (TypeError "unsupported operand type(s) for -")
  end.

(** ** Name resolution *)

(** A function object takes its positional arguments.  A global name of a
    module is unbound, bound to a function, or written as a [def] line
    that no body follows.  Python refuses to compile a module with such a
    line; the model keeps the other definitions of the module and lets the
    call of that name raise the compiler's error. *)
Definition callable : Type := seq pyval -> result pyval.

Inductive binding : Type :=
  | Unbound
  | NoBody
  | Bound of callable.

Definition namespace : Type := string -> binding.

(** The value of a global name [f] in a call [f(...)]: it is looked up
    before the arguments of the call are evaluated. *)
Definition lookup (G : namespace) (f : string) : result callable :=
  match G f with
  | Bound c => Ok c
  | NoBody => Err (IndentationError "expected an indented block")
  | Unbound => Err (NameError f)
  end.

(** [f(args)] for a global name [f].  The name is looked up when the call
    is executed. *)
Definition call (G : namespace) (f : string) (args : seq pyval)
    : result pyval :=
  match G f with
  | Bound c => c args
  | NoBody => Err (IndentationError "expected an indented block")
  | Unbound => Err (NameError f)
  end.

End Values.

Arguments NestedList {R} _.
Arguments NdArray {R} _.
Arguments PyNone {R}.
Arguments PyInt {R} _.
Arguments PyFloat {R} _.
Arguments PyStr {R} _.
Arguments PyList {R} _.
Arguments PyTuple {R} _.
Arguments PyScalarArray {R} _.
Arguments PyArray {R} _.
Arguments PyMatrix {R k N} _.
Arguments PyIddata {R} _.
Arguments PyTF {R} _.
Arguments Unbound {R}.
Arguments NoBody {R}.
Arguments Bound {R} _.

End Py.

(** ** The functions of [vrft_algo.py] *)

Module VrftAlgo.
Section Functions.

Import Py.

Variable R : archiRealFieldType.

Notation pyval := (pyval R).
Notation namespace := (namespace R).

(** [ctl.lsim(sys, u, t)], the simulator of the control library: it
    returns the triple [(y, t, x)]. *)
Variable lsim : pyval -> pyval -> seq R -> result (seq R * seq R * seq R).

(** A two-dimensional array together with its shape. *)
Record mat : Type := Mat {
  rows : nat;
  cols : nat;
  entries : 'M[R]_(rows, cols)
}.

(** The rows of a list of lists of numbers. *)
Definition number_row (x : pyval) : option (seq R) :=
  match x with
  | PyList r | PyTuple r => numbers r
  | PyArray a => Some a
  | _ => None
  end.

Fixpoint number_rows (l : seq pyval) : option (seq (seq R)) :=
  match l with
  | [::] => Some [::]
  | x :: l' =>
      match number_row x, number_rows l' with
      | Some a, Some rows => Some (a :: rows)
      | _, _ => None
      end
  end.

Definition matrix_of_rows (rows : seq (seq R)) : mat :=
  Mat (\matrix_(i < size rows, j < size (head [::] rows))
         nth 0 (nth [::] rows i) j).

(** [np.mat(phi)]: a matrix stays as it is, one-dimensional data becomes
    a matrix of one row, a list of rows of one length the matrix of these
    rows.  Integers are taken as numbers of [R]. *)
Definition np_mat (phi : pyval) : option mat :=
  match phi with
  | PyMatrix k N m => Some (Mat m)
  | _ =>
      match asarray phi with
      | Some a => Some (Mat (\row_(j < size a) nth 0 a j))
      | None =>
          match phi with
          | PyList l | PyTuple l =>
              match number_rows l with
              | Some rows =>
                  if all (fun r => size r == size (head [::] rows)) rows
                  then Some (matrix_of_rows rows)
                  else None
              | None => None
              end
          | _ => None
          end
      end
  end.

Definition vector (N : nat) (a : seq R) : 'cV[R]_N := \col_j nth 0 a j.

(** [calcMinimum] as a function object, lines 10-17: the inverse is taken
    before [data.u] is read. *)
Definition calcMinimum_py (args : seq pyval) : result pyval :=
  match args with
  | [:: phi; data] =>
      match np_mat phi with
      | Some (Mat k N m) =>
          G <- LeastSquares.inv (m *m m^T) ;;
          let theta := G *m m in
          match data with
          | PyIddata d =>
              if size (data_u d) == N then
                Ok (PyMatrix (LeastSquares.dot theta (vector N (data_u d)))^T)
              else Err (ValueError "shapes not aligned")
          | _ => Err (AttributeError "object has no attribute 'u'")
          end
      | None => Err (TypeError "data type not understood")
      end
  | _ => Err (TypeError "calcMinimum() takes 2 positional arguments")
  end.

(** The loop of lines 28-30.  [n] counts the iterations that are left and
    [i] is the loop index; the call of [lsim] rebinds [t]. *)
Fixpoint fill_rows (base error : pyval) (n i : nat) (t : seq R)
    (phi : pyval) : result pyval :=
  match n with
  | 0%N => Ok phi
  | n'.+1 =>
      b <- getitem base i ;;
      out <- lsim b error t ;;
      phi' <- setrow phi i out.1.1 ;;
      fill_rows base error n' i.+1 out.1.2 phi'
  end.

(** [calcControllerReponse(base, error, data)], lines 19-32. *)
Definition calcControllerReponse (base error data : pyval)
    : result pyval :=
  match data with
  | PyIddata d =>
      let t_start := 0%N in
      let t_end := size (data_y d) in
      let t_step := data_ts d in
      t <- arange t_start t_end t_step ;;
      nb <- len base ;;
      phi <- zeros nb (PyInt (Posz (size t))) ;;
      n <- len base ;;
      fill_rows base error n 0 t phi
  | _ => Err (AttributeError "object has no attribute 'y'")
  end.

Definition calcControllerReponse_py (args : seq pyval) : result pyval :=
  match args with
  | [:: base; error; data] => calcControllerReponse base error data
  | _ =>
      Err (TypeError "calcControllerReponse() takes 3 positional arguments")
  end.

(** The loop of lines 44-46 over the elements of [base]. *)
Fixpoint check_components (l : seq pyval) : result unit :=
  match l with
  | [::] => Ok tt
  | c :: l' =>
      if ~~ isinstance_TransferFunction c then
        Err (ValueError
          "Some of the components of the controller are not transfer functions.")
      else check_components l'
  end.

(** [base] is a list whose every element is a transfer function. *)
Definition list_of_TransferFunction (base : pyval) : bool :=
  if base is PyList l then all (@isinstance_TransferFunction R) l else false.

(** The validation stage of [vrftAlgorithm], lines 35-46. *)
Definition validate (data referenceModel base : pyval) : result unit :=
  if ~~ isinstance_iddata data then
    Err (ValueError "The passed data is not of type: iddata")
  else if ~~ isinstance_TransferFunction referenceModel then
    Err (ValueError
      "The passed reference model is not of type: TransferFunction")
  else if ~~ type_is_list base then
    Err (ValueError "Should pass a list of controllers.")
  else check_components (if base is PyList l then l else [::]).

(** [x.tolist()] for [x = referenceModel.num] or [referenceModel.den]: an
    array has the method, a list has not. *)
Definition tolist (x : coefficients R) : result pyval :=
  match x with
  | NdArray a => Ok (PyList [seq PyFloat c | c <- a])
  | NestedList _ =>
      Err (AttributeError "'list' object has no attribute 'tolist'")
  end.

(** Lines 48-56 of [vrftAlgorithm], reached with an [iddata] and a
    [TransferFunction].  In the call of line 48 the name [reference] is
    looked up first, then the arguments are evaluated from left to
    right. *)
Definition pipeline (G : namespace) (d : iddata R)
    (m : TransferFunction R) (base : pyval) : result pyval :=
  reference <- lookup G "reference" ;;
  num <- tolist (tf_num m) ;;
  den <- tolist (tf_den m) ;;
  r <- reference [:: num; den; PyIddata d] ;;
  e <- sub_array r (data_y d) ;;
  phi <- call G "calcControllerResponse" [:: base; e; PyIddata d] ;;
  theta <- call G "calcMinimum" [:: phi; PyIddata d] ;;
  call G "calcFinalController" [:: theta; base].

(** [vrftAlgorithm(data, referenceModel, base)], lines 34-56, run with the
    global names of [G]. *)
Definition vrftAlgorithm (G : namespace) (data referenceModel base : pyval)
    : result pyval :=
  validate data referenceModel base ;;;
  match data, referenceModel with
  | PyIddata d, PyTF m => pipeline G d m base
  | _, _ => Err (AttributeError "object has no attribute 'num'")
  end.

(** The global names of the module.  The three [def]s that precede
    [vrftAlgorithm] shadow whatever the star imports bring; every other
    name ([reference] among them) is the one of [imports]. *)
Definition vrft_algo_globals (imports : namespace) : namespace :=
  fun name =>
    if String.eqb name "calcFinalController" then NoBody
    else if String.eqb name "calcMinimum" then Bound calcMinimum_py
    else if String.eqb name "calcControllerReponse" then
      Bound calcControllerReponse_py
    else imports name.

End Functions.
End VrftAlgo.

(** ** The virtual reference *)

Module VirtualReference.
Section Engine.

Import Py.

Variable R : archiRealFieldType.

Notation pyval := (pyval R).

(** The external simulator of a discrete-time linear system: numerator,
    denominator, sampling period, input sequence and initial state give the
    output sequence and the final state. *)
Variable simulate :
  seq R -> seq R -> R -> seq R -> seq R -> seq R * seq R.

(** Modelled from the spec: the order of a system as section 3 defines
    it, [len(denominator) - 1]. *)
Definition system_order (den : seq R) : nat := (size den).-1.

(** Modelled from the spec: the degree alignment of section 4.2, in which
    both coefficient sequences are padded with zeros at the low-order end
    to the same length. *)
Definition align (num den : seq R) : seq R * seq R :=
  (num ++ nseq (size den - size num) 0, den ++ nseq (size num - size den) 0).

(** Modelled from the spec: the order read off the aligned sequences,
    which have length [order + 1] (section 9). *)
Definition aligned_order (num den : seq R) : nat :=
  (size (align num den).2).-1.

(** Modelled from the spec: the preconditions of section 4.2 on the
    system, checked by a helper of [vrft.utils] that is not among the
    sources.  A system description is a pair of coefficient sequences; a
    scalar stands for a sequence of one coefficient.  The denominator has a
    non-zero leading coefficient (section 3), the system is proper and its
    order is at least one. *)
Definition checkSystem (num den : pyval) : result (seq R * seq R) :=
  match asarray num, asarray den with
  | Some n, Some d =>
      if (size n == 0%N) || (size d == 0%N) then
        Err (ValueError "Empty coefficient sequence.")
      else if head 0 d == 0 then
        Err (ValueError "Denominator cannot be zero.")
      else if (size d < size n)%N then
        Err (ValueError "The system is not causal.")
      else if system_order d == 0%N then
        Err (ValueError "The reference model can't be a constant.")
      else Ok (n, d)
  | _, _ => Err (ValueError "Error in check system")
  end.

(** What [checkSystem] asks of a description, short of the order: two
    non-empty coefficient sequences, a denominator with a non-zero leading
    coefficient, and a numerator that is not longer than the denominator. *)
Definition system_description (num den : pyval) : bool :=
  match asarray num, asarray den with
  | Some n, Some d =>
      [&& size n != 0%N, size d != 0%N, head 0 d != 0 & (size n <= size d)%N]
  | _, _ => false
  end.

(** A constant gain: numerator and denominator are scalars. *)
Definition constant_gain (num den : pyval) : bool :=
  match asarray num, asarray den with
  | Some n, Some d => (size n == 1%N) && (size d == 1%N)
  | _, _ => false
  end.

(** Modelled from the spec: [virtual_reference(data, num, den)], which the
    tests import from [vrft.utils] and which is not among the sources.  The
    checks are those of section 4.2 (a valid system of order at least one,
    valid data, as many initial conditions as the order of the aligned
    system); the inversion swaps the aligned numerator and denominator and
    hands them to the simulator with the measured output as input. *)
Definition virtual_reference (data num den : pyval)
    : result (seq R * seq R) :=
  sys <- checkSystem num den ;;
  match data with
  | PyIddata d =>
      if size (data_y d) != size (data_u d) then
        Err (ValueError "Input and output size do not match.")
      else if size (data_y0 d) != aligned_order sys.1 sys.2 then
        Err (ValueError "Wrong initial condition size.")
      else
        let a := align sys.1 sys.2 in
        Ok (simulate a.2 a.1 (data_ts d) (data_y d) (data_y0 d))
  | _ => Err (ValueError "The passed data is not of type: iddata")
  end.

End Engine.
End VirtualReference.

(** ** Concrete inputs *)

Module Examples.

Import Py.

(** A decimal number with five digits after the point:
    [dec5 a b] is [(1000 a + b) / 100000]. *)
Definition dec5 (a b : nat) : rat :=
  (a%:Q * 1000%:Q + b%:Q) / (100%:Q * 1000%:Q).

(** Experiment data of two samples with [n] zero initial conditions. *)
Definition data_ic (n : nat) : iddata rat :=
  Iddata [:: 0; 1] [:: 1; 1] (dec5 1 0) (nseq n 0).

(** A reference model and a basis element as the control library builds
    them, with a sampling period that is not the one of [data_ic]. *)
Definition refModel : TransferFunction rat :=
  TF (NestedList [:: [:: [:: dec5 60 0]]])
     (NestedList [:: [:: [:: 1; - dec5 40 0]]]) 1.
Definition integrator : TransferFunction rat :=
  TF (NestedList [:: [:: [:: 1]]]) (NestedList [:: [:: [:: 1; -1]]]) 2%:Q.

(** The same reference model as an object whose [num] and [den] are
    arrays. *)
Definition refModel_arrays : TransferFunction rat :=
  TF (NdArray [:: dec5 60 0]) (NdArray [:: 1; - dec5 40 0]) 1.

(** A simulator that returns its input, and star imports that bind
    [reference] to a function returning [data.y]. *)
Definition echo (num den : seq rat) (ts : rat) (u x0 : seq rat)
    : seq rat * seq rat := (u, x0).

Definition reference_stub (args : seq (pyval rat)) : result (pyval rat) :=
  match args with
  | [:: _; _; PyIddata d] => Ok (PyArray (data_y d))
  | _ => Err (TypeError "reference() takes 3 positional arguments")
  end.

Definition imports : namespace rat :=
  fun name =>
    if String.eqb name "reference" then Bound reference_stub else Unbound.

(** A valid call of [vrftAlgorithm]. *)
Definition data : pyval rat := PyIddata (data_ic 1).
Definition model : pyval rat := PyTF refModel.
Definition model_arrays : pyval rat := PyTF refModel_arrays.
Definition basis : pyval rat := PyList [:: PyTF integrator].

Definition lsim_stub (sys error : pyval rat) (t : seq rat)
    : result (seq rat * seq rat * seq rat) :=
  Ok (t, t, [::]).

Definition globals : namespace rat :=
  VrftAlgo.vrft_algo_globals lsim_stub imports.

End Examples.

(** ** Further inputs *)

Module Parts.

(** A list of two basis elements. *)
Definition two_elements : seq (Py.pyval rat) :=
  [:: Py.PyTF Examples.integrator; Py.PyTF Examples.refModel].

End Parts.

(** * Properties *)

(** ** The regressor step *)

Section RegressorFacts.

Import Py VrftAlgo.

Variable R : archiRealFieldType.
Variable lsim :
  pyval R -> pyval R -> seq R -> result (seq R * seq R * seq R).

(** A number in the place of [dtype] makes [np.zeros] raise. *)
Lemma zeros_int (n : nat) (z : int) :
  zeros n (PyInt z : pyval R) =
    Err (TypeError "Cannot interpret value as a data type").
Proof. by []. Qed.

Lemma arange_nonzero (start stop : nat) (step : R) :
  step != 0 -> exists t, arange start stop step = Ok t.
Proof. by rewrite /arange => /negbTE ->; eexists. Qed.

(** [calcControllerReponse] returns on no input: before the first row is
    computed, the allocation of line 26 raises. *)
Lemma calcControllerReponse_not_ok (base error data : pyval R) :
  is_ok (calcControllerReponse lsim base error data) = false.
Proof.
case: data => //= d; rewrite /arange; case: ifP => //= _.
by case: (len base).
Qed.

(** C3.  For a basis list of any size, an error sequence of any length and
    data with a non-zero sampling period, [calcControllerReponse] raises
    the [TypeError] of [np.zeros(len(base), len(t))]: no matrix of shape
    (k, N) is returned. *)
Theorem calcControllerReponse_TypeError (l : seq (pyval R)) (error : seq R)
    (d : iddata R) :
  data_ts d != 0 ->
  calcControllerReponse lsim (PyList l) (PyArray error) (PyIddata d) =
    Err (TypeError "Cannot interpret value as a data type").
Proof. by rewrite /calcControllerReponse /arange => /negbTE ->. Qed.

End RegressorFacts.

Lemma calcControllerReponse_TypeError_witness :
  Py.data_ts (Py.Iddata [:: 0; 1%:Q] [:: 1; 1] 1 [::]) != 0 /\
  VrftAlgo.calcControllerReponse Examples.lsim_stub
    (Py.PyList [:: Py.PyTF Examples.integrator]) (Py.PyArray [:: 1; 0])
    (Py.PyIddata (Py.Iddata [:: 0; 1%:Q] [:: 1; 1] 1 [::])) =
  Err (TypeError "Cannot interpret value as a data type").
Proof.
have ts1 : Py.data_ts (Py.Iddata [:: 0; 1%:Q] [:: 1; 1] 1 [::]) != 0.
  exact: oner_neq0.
split; first exact: ts1.
exact: (calcControllerReponse_TypeError Examples.lsim_stub _ _ ts1).
Defined.

(** ** The orchestrator *)

Section OrchestratorFacts.

Import Py VrftAlgo.

Variable R : archiRealFieldType.
Variable lsim :
  pyval R -> pyval R -> seq R -> result (seq R * seq R * seq R).

Notation pyval := (pyval R).
Notation namespace := (namespace R).

Lemma check_components_all (l : seq pyval) :
  check_components l =
    if all (@isinstance_TransferFunction R) l then Ok tt
    else Err (ValueError
      "Some of the components of the controller are not transfer functions.").
Proof. by elim: l => //= c l ->; case: isinstance_TransferFunction. Qed.

Lemma validate_accepts (data referenceModel base : pyval) :
  isinstance_iddata data -> isinstance_TransferFunction referenceModel ->
  list_of_TransferFunction base ->
  validate data referenceModel base = Ok tt.
Proof.
rewrite /validate => -> -> /=; case: base => //= l.
by rewrite check_components_all => ->.
Qed.

Lemma validate_rejects (data referenceModel base : pyval) :
  ~~ [&& isinstance_iddata data, isinstance_TransferFunction referenceModel
       & list_of_TransferFunction base] ->
  exists msg, validate data referenceModel base = Err (ValueError msg).
Proof.
rewrite /validate; case: isinstance_iddata => /=; last by eexists.
case: isinstance_TransferFunction => /=; last by eexists.
case: base => /=; try by eexists.
by move=> l /negbTE; rewrite check_components_all => ->; eexists.
Qed.

(** A failed validation is the outcome of the call, whatever the global
    names are bound to. *)
Lemma vrftAlgorithm_invalid (G : namespace) data referenceModel base e :
  validate data referenceModel base = Err e ->
  vrftAlgorithm G data referenceModel base = Err e.
Proof. by rewrite /vrftAlgorithm => ->. Qed.

Lemma vrftAlgorithm_valid (G : namespace) d m base :
  validate (PyIddata d) (PyTF m) base = Ok tt ->
  vrftAlgorithm G (PyIddata d) (PyTF m) base = pipeline G d m base.
Proof. by rewrite /vrftAlgorithm => ->. Qed.

Lemma validate_inv (data referenceModel base : pyval) :
  validate data referenceModel base = Ok tt ->
  exists d m l, [/\ data = PyIddata d, referenceModel = PyTF m
                  & base = PyList l].
Proof.
case: data => //= d; case: referenceModel => //= m; case: base => //= l _.
by exists d, m, l.
Qed.

(** The call of the regressor step names a function that the module does
    not define. *)
Lemma pipeline_NameError (imports : namespace) d m base :
  imports "calcControllerResponse"%string = Unbound ->
  pipeline (vrft_algo_globals lsim imports) d m base =
    (reference <- lookup (vrft_algo_globals lsim imports) "reference" ;;
     num <- tolist (tf_num m) ;;
     den <- tolist (tf_den m) ;;
     r <- reference [:: num; den; PyIddata d] ;;
     e <- sub_array r (data_y d) ;;
     Err (NameError "calcControllerResponse")).
Proof.
move=> unb; rewrite /pipeline.
case: (lookup _ _) => //= reference; case: (tolist _) => //= num.
case: (tolist _) => //= den; case: (reference _) => //= r.
case: (sub_array _ _) => //= e.
by rewrite /call /vrft_algo_globals /= unb.
Qed.

Lemma pipeline_not_ok (imports : namespace) d m base :
  is_ok (pipeline (vrft_algo_globals lsim imports) d m base) = false.
Proof.
rewrite /pipeline.
case: (lookup _ _) => //= reference; case: (tolist _) => //= num.
case: (tolist _) => //= den; case: (reference _) => //= r.
case: (sub_array _ _) => //= e.
case: (call _ "calcControllerResponse" _) => //= phi.
by case: (call _ "calcMinimum" _).
Qed.

(** The value of a call of [pipeline] is a value of its last call. *)
Lemma pipeline_value (G : namespace) d m base v :
  pipeline G d m base = Ok v ->
  exists theta, call G "calcFinalController" [:: theta; base] = Ok v.
Proof.
rewrite /pipeline.
case: (lookup _ _) => //= reference; case: (tolist _) => //= num.
case: (tolist _) => //= den; case: (reference _) => //= r.
case: (sub_array _ _) => //= e.
case: (call _ "calcControllerResponse" _) => //= phi.
by case: (call _ "calcMinimum" _) => //= theta; exists theta.
Qed.

(** C10.  The validation stage looks at the classes of its arguments and
    at nothing else: experiment data, a reference model and a list of
    basis elements pass it whatever their sampling periods and coefficient
    sequences are. *)
Theorem validate_types_only (d : iddata R) (m : TransferFunction R)
    (basis : seq (TransferFunction R)) :
  validate (PyIddata d) (PyTF m) (PyList [seq PyTF c | c <- basis]) = Ok tt.
Proof.
apply: validate_accepts => //=.
by elim: basis.
Qed.

(** C6, as amended.  When [data] is not an [iddata], [referenceModel] is
    not a transfer function, or [base] is not a list whose every element is
    a transfer function, [vrftAlgorithm] raises the [ValueError] of its
    validation stage without calling any other function; otherwise the
    validation stage passes, an empty list included. *)
Theorem vrftAlgorithm_validation (data referenceModel base : pyval) :
  if [&& isinstance_iddata data, isinstance_TransferFunction referenceModel
       & list_of_TransferFunction base]
  then validate data referenceModel base = Ok tt
  else exists msg,
         forall G : namespace,
           vrftAlgorithm G data referenceModel base = Err (ValueError msg).
Proof.
case: ifP => [/and3P [hd hm hb]|/negbT /validate_rejects [msg inv]].
  exact: validate_accepts.
by exists msg => G; apply: vrftAlgorithm_invalid.
Qed.

(** C9.  With the global names of [vrft_algo.py], in which
    [calcFinalController] has no body and [calcControllerResponse] is bound
    to nothing, [vrftAlgorithm] returns on no input.  The function that is
    defined, [calcControllerReponse], raises on every input.  A call that
    passes the validation stage ends in an exception of line 48 (the
    look-up of [reference], [tolist], [reference] itself), of the
    subtraction, or in the [NameError] of the regressor call: it does not
    reach the synthesis step. *)
Theorem vrftAlgorithm_never_returns (imports : namespace)
    (data referenceModel base : pyval) :
  imports "calcControllerResponse"%string = Unbound ->
  let G := vrft_algo_globals lsim imports in
  [/\ G "calcFinalController"%string = NoBody,
      G "calcControllerResponse"%string = Unbound,
      forall b e x, is_ok (calcControllerReponse lsim b e x) = false,
      is_ok (vrftAlgorithm G data referenceModel base) = false
    & validate data referenceModel base = Ok tt ->
      exists d m,
        [/\ data = PyIddata d, referenceModel = PyTF m
          & vrftAlgorithm G data referenceModel base =
              (reference <- lookup G "reference" ;;
               num <- tolist (tf_num m) ;;
               den <- tolist (tf_den m) ;;
               r <- reference [:: num; den; PyIddata d] ;;
               e <- sub_array r (data_y d) ;;
               Err (NameError "calcControllerResponse"))]].
Proof.
move=> unb G; split.
- by [].
- by rewrite /G /vrft_algo_globals /=.
- exact: calcControllerReponse_not_ok.
- rewrite /vrftAlgorithm; case: validate => //= _.
  by case: data => // d; case: referenceModel => // m; apply: pipeline_not_ok.
move=> valid; have [d [m [l [ed em el]]]] := validate_inv valid.
exists d, m; split=> //; rewrite ed em in valid *.
by rewrite vrftAlgorithm_valid // pipeline_NameError.
Qed.

(** C2, as amended.  [vrftAlgorithm] takes no design filter and builds no
    tuple.  On valid input, and whatever the global names are bound to,
    the call is this sequence, ended by the first step that raises: the
    look-up of [reference], [referenceModel.num.tolist()],
    [referenceModel.den.tolist()], the call of [reference], the
    subtraction [r - data.y], the regressor call on the unfiltered error,
    [calcMinimum] on the data as they are, and [calcFinalController].  A
    value that the call returns is a value that [calcFinalController]
    returned. *)
Theorem vrftAlgorithm_pipeline (G : namespace) (d : iddata R)
    (m : TransferFunction R) (l : seq pyval) :
  all (@isinstance_TransferFunction R) l ->
  vrftAlgorithm G (PyIddata d) (PyTF m) (PyList l) =
    (reference <- lookup G "reference" ;;
     num <- tolist (tf_num m) ;;
     den <- tolist (tf_den m) ;;
     r <- reference [:: num; den; PyIddata d] ;;
     e <- sub_array r (data_y d) ;;
     phi <- call G "calcControllerResponse" [:: PyList l; e; PyIddata d] ;;
     theta <- call G "calcMinimum" [:: phi; PyIddata d] ;;
     call G "calcFinalController" [:: theta; PyList l]) /\
  forall v,
    vrftAlgorithm G (PyIddata d) (PyTF m) (PyList l) = Ok v ->
    exists theta, call G "calcFinalController" [:: theta; PyList l] = Ok v.
Proof.
move=> tfs.
have valid : validate (PyIddata d) (PyTF m) (PyList l) = Ok tt.
  exact: validate_accepts.
by rewrite (vrftAlgorithm_valid _ valid); split=> // v /pipeline_value.
Qed.

End OrchestratorFacts.

(** ** The orchestrator on concrete inputs *)

Section OrchestratorExamples.

Import Py VrftAlgo Examples.

Lemma imports_unbound : imports "calcControllerResponse"%string = Unbound.
Proof. by []. Qed.

(** The sampling periods of the reference model and of the basis element
    differ from the one of the data; the validation stage passes. *)
Lemma validate_mismatched_period :
  [/\ tf_dt refModel != data_ts (data_ic 1),
      tf_dt integrator != data_ts (data_ic 1)
    & validate data model basis = Ok tt].
Proof. by split; vm_compute. Qed.

(** C2, refuted as stated: on valid input the call of [vrftAlgorithm]
    returns no tuple of five values.  With a reference model of the
    control library it ends in the [AttributeError] of line 48, with one
    whose coefficients are arrays in the [NameError] of line 52. *)
Lemma vrftAlgorithm_no_five_tuple :
  vrftAlgorithm globals data model basis =
    Err (AttributeError "'list' object has no attribute 'tolist'") /\
  vrftAlgorithm globals data model_arrays basis =
    Err (NameError "calcControllerResponse").
Proof. by []. Qed.

Lemma vrftAlgorithm_pipeline_witness :
  vrftAlgorithm globals data model_arrays basis =
    Err (NameError "calcControllerResponse").
Proof.
have [-> _] := @vrftAlgorithm_pipeline _ globals (data_ic 1) refModel_arrays
                 [:: PyTF integrator] isT.
by [].
Defined.

(** C6, refuted as stated: an empty basis list passes the validation
    stage; the call goes on to line 48 and ends in the [AttributeError]
    raised there, not in a [ValueError]. *)
Lemma vrftAlgorithm_empty_basis :
  validate data model (PyList [::]) = Ok tt /\
  vrftAlgorithm globals data model (PyList [::]) =
    Err (AttributeError "'list' object has no attribute 'tolist'").
Proof. by []. Qed.

Lemma vrftAlgorithm_never_returns_witness :
  is_ok (vrftAlgorithm globals data model basis) = false.
Proof.
by have [] := vrftAlgorithm_never_returns lsim_stub data model basis
                imports_unbound.
Defined.

End OrchestratorExamples.

(** ** The virtual reference *)

Section VirtualReferenceFacts.

Import Py VirtualReference.

Variable R : archiRealFieldType.
Variable simulate : seq R -> seq R -> R -> seq R -> seq R -> seq R * seq R.

Notation pyval := (pyval R).

Lemma checkSystem_rejects (num den : pyval) :
  ~~ system_description num den || constant_gain num den ->
  exists msg, checkSystem num den = Err (ValueError msg).
Proof.
rewrite /checkSystem /system_description /constant_gain.
case: (asarray num) => [n|]; last by eexists.
case: (asarray den) => [d|]; last by eexists.
case sn: (size n == 0%N) => /=; first by eexists.
case sd: (size d == 0%N) => /=; first by eexists.
case hd: (head 0 d == 0) => /=; first by eexists.
case lt: (size d < size n)%N => /=; first by eexists.
rewrite leqNgt lt /= /system_order => /andP [_ /eqP ->] /=.
by eexists.
Qed.

(** C8.  For a constant gain (numerator and denominator are scalars) and
    for arguments that do not describe a system, [virtual_reference]
    raises a [ValueError], whatever is passed as data. *)
Theorem virtual_reference_rejects_constant (data num den : pyval) :
  ~~ system_description num den || constant_gain num den ->
  exists msg, virtual_reference simulate data num den = Err (ValueError msg).
Proof.
move=> /checkSystem_rejects [msg rej]; exists msg.
by rewrite /virtual_reference rej.
Qed.

End VirtualReferenceFacts.

Section VirtualReferenceExamples.

Import Py VirtualReference Examples.

(** The four calls of [test_virtual_reference_basic]; the arguments are
    positional, in the order data, numerator, denominator. *)
Lemma test_virtual_reference_basic :
  [/\ is_ValueError (virtual_reference echo (PyInt 1) (PyInt 1) (PyInt 0)),
      is_ValueError (virtual_reference echo (PyList [:: PyInt 1])
                       (PyList [:: PyInt 1]) (PyInt 0)),
      is_ValueError (virtual_reference echo (PyScalarArray 2%:Q)
                       (PyScalarArray 3%:Q) (PyInt 0))
    & is_ValueError (virtual_reference echo (PyList [:: PyInt 1])
                       (PyList [:: PyInt 1; PyInt 1]) (PyInt 0))].
Proof. by split; vm_compute. Qed.

Lemma virtual_reference_rejects_constant_witness :
  exists msg,
    virtual_reference echo (PyInt 0) (PyInt 1) (PyInt 1) =
      Err (ValueError msg).
Proof.
by apply: (virtual_reference_rejects_constant echo (PyInt 0)
             (num := PyInt 1) (den := PyInt 1)).
Defined.

End VirtualReferenceExamples.

(** * Further properties *)

(** ** The estimate for an empty basis *)

Section EstimatorProperties.

Import LeastSquares.

Variable R : realFieldType.

(** X8.  No basis function: the empty parameter vector is returned. *)
Theorem calcMinimum_empty_basis N (phi : 'M[R]_(0, N)) (u : 'cV[R]_N) :
  calcMinimum phi u = Ok 0.
Proof.
rewrite /calcMinimum /inv unitmxE det_mx00 unitr1 /=.
by congr Ok; apply/matrixP => -[].
Qed.

End EstimatorProperties.

(** ** The loop of the regressor step *)

Section RegressorParts.

Import Py VrftAlgo Parts.

Variable R : archiRealFieldType.
Variable lsim :
  pyval R -> pyval R -> seq R -> result (seq R * seq R * seq R).

Notation pyval := (pyval R).

Section Loop.

Variables (l : seq pyval) (error : pyval) (t : seq R) (N : nat).
Variables (y x : nat -> seq R).

Hypothesis simulated : forall j, (j < size l)%N ->
  lsim (nth PyNone l j) error t = Ok (y j, t, x j) /\ size (y j) = N.

(** The matrix after the iterations [i, ..., i + n - 1]. *)
Lemma fill_rows_matrix n i (phi : 'M[R]_(size l, N)) :
  (i + n <= size l)%N ->
  fill_rows lsim (PyList l) error n i t (PyMatrix phi) =
    Ok (PyMatrix
          (\matrix_(a, b)
             if (i <= a < i + n)%N then nth 0 (y a) b else phi a b)).
Proof.
elim: n i phi => [|n IH] i phi le.
  congr (Ok (PyMatrix _)); apply/matrixP => a b.
  by rewrite mxE addn0 leqNgt andNb.
have lti : (i < size l)%N by rewrite (leq_trans _ le) // -addSnnS leq_addr.
have [sim szy] := simulated lti.
have le' : (i.+1 + n <= size l)%N by rewrite addSnnS.
rewrite /= lti /= sim /= szy eqxx /= (IH _ _ le').
congr (Ok (PyMatrix _)); apply/matrixP => a b; rewrite !mxE.
rewrite addSnnS [in RHS]leq_eqVlt; case: (altP (i =P a)) => [<-|ne] /=.
  rewrite ltnn /= eqxx -addSnnS leq_addr.
  case: eqP => // N1; have := ltn_ord b.
  by rewrite [X in (_ < X)%N]N1 ltnS leqn0 => /eqP ->.
by rewrite eq_sym (negbTE ne).
Qed.

End Loop.

(** X13.  When the simulator answers each basis element with [N] samples and
    the time vector it was given, the loop of lines 28-30, started on a
    matrix of shape (k, N), returns the matrix of the same shape whose row
    [j] is the response of [base[j]]. *)
Theorem fill_rows_regressor (l : seq pyval) (error : pyval) (t : seq R)
    (N : nat) (y x : nat -> seq R) (phi : 'M[R]_(size l, N)) :
  (forall j, (j < size l)%N ->
     lsim (nth PyNone l j) error t = Ok (y j, t, x j) /\ size (y j) = N) ->
  fill_rows lsim (PyList l) error (size l) 0 t (PyMatrix phi) =
    Ok (PyMatrix (\matrix_(a < size l, b < N) nth 0 (y a) b)).
Proof.
move=> sim; rewrite (fill_rows_matrix sim) //.
by congr (Ok (PyMatrix _)); apply/matrixP => a b; rewrite !mxE add0n ltn_ord.
Qed.

End RegressorParts.

(** ** Line 48 of the orchestrator *)

Section CoefficientFacts.

Import Py VrftAlgo.

Variable R : archiRealFieldType.

Notation pyval := (pyval R).

(** X14.  On valid input whose reference model keeps its numerator as the
    control library does, as a list of lists of arrays, the call ends in
    the [AttributeError] of [referenceModel.num.tolist()] on line 48:
    [reference], when the name is bound, is not called, and the
    subtraction is not reached. *)
Theorem vrftAlgorithm_tolist_AttributeError (G : namespace R)
    (d : iddata R) (m : TransferFunction R) (l : seq pyval)
    (reference : callable R) (polynomials : seq (seq (seq R))) :
  all (@isinstance_TransferFunction R) l ->
  G "reference"%string = Bound reference ->
  tf_num m = NestedList polynomials ->
  vrftAlgorithm G (PyIddata d) (PyTF m) (PyList l) =
    Err (AttributeError "'list' object has no attribute 'tolist'").
Proof.
move=> tfs Gr nested.
have valid : validate (PyIddata d) (PyTF m) (PyList l) = Ok tt.
  exact: validate_accepts.
by rewrite (vrftAlgorithm_valid _ valid) /pipeline /lookup Gr /= nested.
Qed.

End CoefficientFacts.

(** ** The further properties on concrete inputs *)

Section FurtherExamples.

Import Py VrftAlgo Examples Parts.

Lemma fill_rows_regressor_witness :
  fill_rows lsim_stub (PyList two_elements) PyNone 2 0 [:: 0; 1]
    (PyMatrix (0 : 'M[rat]_(2, 2))) =
  Ok (PyMatrix (\matrix_(a < 2, b < 2) nth 0 [:: 0; 1] b)).
Proof.
apply: (@fill_rows_regressor _ lsim_stub two_elements PyNone [:: 0; 1] 2
          (fun _ => [:: 0; 1]) (fun _ => [::]) 0).
by move=> j _.
Defined.

Lemma vrftAlgorithm_tolist_AttributeError_witness :
  vrftAlgorithm globals data model basis =
    Err (AttributeError "'list' object has no attribute 'tolist'").
Proof.
exact: (@vrftAlgorithm_tolist_AttributeError _ globals (data_ic 1) refModel
          [:: PyTF integrator] reference_stub [:: [:: [:: dec5 60 0]]]
          isT (erefl _) (erefl _)).
Defined.

End FurtherExamples.
